(** * llm_client.py: the chat request handler

    A shallow embedding of [apps/server/src/scripts/llm_client.py] and the
    properties of its request/response contract.

    The script is one coroutine, [main], run once per process.  Everything it
    calls is a library: [json], [os], [datetime], [print], [sys.exit] and the
    chat client [emergentintegrations.llm.chat].  The embedding keeps [main]
    as it is written and puts the libraries whose behaviour depends on the
    outside (the JSON decoder, the environment, the chat client, the clock)
    in a record [World], so that every statement holds for whatever these
    libraries answer. *)

From Stdlib Require Import String Ascii List NArith ZArith Arith Lia Bool.
From Stdlib Require Import Floats.SpecFloat DecimalString.
From ExtLib Require Import Structures.Monad Data.Monads.OptionMonad.
Import ListNotations.
Import MonadNotation.
Local Open Scope string_scope.
Local Open Scope nat_scope.
Local Open Scope monad_scope.

(** ** Python values *)

(** A Python [str] is modelled by a Rocq [string]; a character of code [n]
    stands for the code point [n] (so the model covers code points below
    256). *)

(** The values [json.loads] can return, which are also the values
    [json.dumps] is given. *)
#[warnings="-register-all"]
Inductive pyobj : Type :=
| PyNone
| PyBool (b : bool)
| PyInt (z : Z)
| PyFloat (f : spec_float)
| PyStr (s : string)
| PyList (l : list pyobj)
| PyDict (d : list (string * pyobj)).

(** What a raised object shows: [type(e).__name__] and [str(e)].  A class
    name is any string: [type('', (Exception,), {})] has the empty one. *)
Record exn : Type := mkExn { exn_class : string; exn_str : string }.

(** A raised object is an instance of [Exception], which a clause
    [except Exception] catches, or of another subclass of [BaseException]
    ([asyncio.CancelledError], [GeneratorExit]), which the clause lets
    through and the interpreter reports with a traceback and status 1.  The
    name of the class does not tell which.  [SystemExit] is the [SysExit] of
    [outcome]; a [KeyboardInterrupt], which ends the process by its signal,
    is not modelled. *)
Inductive raised : Type :=
| Exc (e : exn)
| BaseExc (e : exn).

Fixpoint lookup {A : Type} (k : string) (l : list (string * A)) : option A :=
  match l with
  | [] => None
  | (k', v) :: l' => if String.eqb k k' then Some v else lookup k l'
  end.

(** [d.get(key, default)] on the items of a dict. *)
Definition dict_get (d : list (string * pyobj)) (key : string) (default : pyobj)
  : pyobj :=
  match lookup key d with
  | Some v => v
  | None => default
  end.

(** [bool(v)], the test behind [not v]. *)
Definition truthy (v : pyobj) : bool :=
  match v with
  | PyNone => false
  | PyBool b => b
  | PyInt z => negb (Z.eqb z 0)
  | PyFloat (S754_zero _) => false
  | PyFloat _ => true
  | PyStr s => negb (String.eqb s "")
  | PyList [] => false
  | PyList (_ :: _) => true
  | PyDict [] => false
  | PyDict (_ :: _) => true
  end.

(** [type(v).__name__] *)
Definition type_name (v : pyobj) : string :=
  match v with
  | PyNone => "NoneType"
  | PyBool _ => "bool"
  | PyInt _ => "int"
  | PyFloat _ => "float"
  | PyStr _ => "str"
  | PyList _ => "list"
  | PyDict _ => "dict"
  end.

(** ** json.dumps *)

Module Json.

Definition dquote : string := String "034"%char "".
Definition quoted (s : string) : string := dquote ++ s ++ dquote.

Definition hex_digit (n : nat) : ascii :=
  if n <? 10 then ascii_of_nat (48 + n) else ascii_of_nat (87 + n).

(** The replacement of one character under [ensure_ascii=True]: the short
    escapes, the characters from space to tilde as they are, and a
    [\u00xx] escape for the rest. *)
Definition escape_char (c : ascii) : string :=
  let n := nat_of_ascii c in
  if n =? 34 then "\" ++ dquote
  else if n =? 92 then "\\"
  else if n =? 10 then "\n"
  else if n =? 13 then "\r"
  else if n =? 9 then "\t"
  else if n =? 12 then "\f"
  else if n =? 8 then "\b"
  else if (32 <=? n) && (n <=? 126) then String c ""
  else "\u00" ++ String (hex_digit (n / 16)) (String (hex_digit (n mod 16)) "").

Fixpoint escape (s : string) : string :=
  match s with
  | EmptyString => ""
  | String c s' => escape_char c ++ escape s'
  end.

Definition encode_basestring_ascii (s : string) : string := quoted (escape s).

Definition int_repr (z : Z) : string := NilZero.string_of_int (Z.to_int z).

Section Dumps.

(** [float.__repr__], with [NaN] and [Infinity] for the values JSON has no
    syntax for. *)
Variable float_repr : spec_float -> string.

(** [json.dumps(v)] with its default arguments: [", "] between items and
    [": "] after a key, a dict in insertion order. *)
Fixpoint dumps (v : pyobj) : string :=
  match v with
  | PyNone => "null"
  | PyBool true => "true"
  | PyBool false => "false"
  | PyInt z => int_repr z
  | PyFloat f => float_repr f
  | PyStr s => encode_basestring_ascii s
  | PyList l =>
      "[" ++
      (fix items (l : list pyobj) : string :=
         match l with
         | [] => ""
         | [x] => dumps x
         | x :: l' => dumps x ++ ", " ++ items l'
         end) l ++ "]"
  | PyDict d =>
      "{" ++
      (fix items (d : list (string * pyobj)) : string :=
         match d with
         | [] => ""
         | [(k, x)] => encode_basestring_ascii k ++ ": " ++ dumps x
         | (k, x) :: d' =>
             encode_basestring_ascii k ++ ": " ++ dumps x ++ ", " ++ items d'
         end) d ++ "}"
  end.

End Dumps.

End Json.

(** ** datetime *)

Record datetime : Type := mkDatetime {
  year : N; month : N; day : N;
  hour : N; minute : N; second : N; microsecond : N
}.

Module Datetime.

Local Open Scope N_scope.

Definition is_leap (y : N) : bool :=
  (y mod 4 =? 0) && (negb (y mod 100 =? 0) || (y mod 400 =? 0)).

Definition days_in_month (y m : N) : N :=
  match m with
  | 2 => if is_leap y then 29 else 28
  | 4 | 6 | 9 | 11 => 30
  | _ => 31
  end.

(** The ranges the [datetime] constructor enforces. *)
Definition valid (d : datetime) : bool :=
  (1 <=? year d) && (year d <=? 9999) &&
  (1 <=? month d) && (month d <=? 12) &&
  (1 <=? day d) && (day d <=? days_in_month (year d) (month d)) &&
  (hour d <=? 23) && (minute d <=? 59) && (second d <=? 59) &&
  (microsecond d <=? 999999).

Definition digit (n : N) : ascii := ascii_of_N (48 + n).

(** [n] in decimal on [w] digits, zero padded: the [%0wd] of the format. *)
Fixpoint zpad (w : nat) (n : N) : string :=
  match w with
  | O => ""
  | S w' => String (digit ((n / 10 ^ N.of_nat w') mod 10)) (zpad w' n)
  end.

(** [d.isoformat()] of a naive datetime: [YYYY-MM-DDTHH:MM:SS], followed by
    [.ffffff] when the microsecond is not zero. *)
Definition isoformat (d : datetime) : string :=
  zpad 4 (year d) ++ "-" ++ zpad 2 (month d) ++ "-" ++ zpad 2 (day d) ++ "T" ++
  zpad 2 (hour d) ++ ":" ++ zpad 2 (minute d) ++ ":" ++ zpad 2 (second d) ++
  (if microsecond d =? 0 then "" else "." ++ zpad 6 (microsecond d)).

(** The order of [datetime] values: field by field, the year first. *)
Fixpoint lex_leb (a b : list N) : bool :=
  match a, b with
  | x :: a', y :: b' => (x <? y) || ((x =? y) && lex_leb a' b')
  | [], _ => true
  | _ :: _, [] => false
  end.

Definition fields (d : datetime) : list N :=
  [year d; month d; day d; hour d; minute d; second d; microsecond d].

Definition leb (a b : datetime) : bool := lex_leb (fields a) (fields b).

End Datetime.

(** ** The chat client *)

(** An [LlmChat] object holds what it was constructed with and the
    provider/model pair chosen by [with_model] ([None] until then). *)
Record LlmChat : Type := mkLlmChat {
  chat_api_key : pyobj;
  chat_session_id : pyobj;
  chat_system_message : pyobj;
  chat_model : option (pyobj * pyobj)
}.

Record UserMessage : Type := mkUserMessage { text : pyobj }.

(** ** The world of one invocation *)

(** What the process does that is visible from outside, in order. *)
Inductive event : Type :=
| EvPrint (line : string)
| EvJsonLoads (s : string)
| EvLlmChat (api_key session_id system_message : pyobj)
| EvWithModel (chat : LlmChat) (provider model : pyobj)
| EvUserMessage (text : pyobj)
| EvSendMessage (chat : LlmChat) (user_message : UserMessage)
| EvNow.

(** The answers of the libraries.  [json.loads] returns or raises an
    [Exception] ([JSONDecodeError], [RecursionError]).  A call to the chat
    client returns or raises, an [Exception] or not ([sys.exit] apart);
    [send_message] returns the reply, a [str].  The clock is read at a
    logical time, the number of events so far. *)
Record World : Type := mkWorld {
  environ : list (string * string);
  decoder : string -> exn + pyobj;
  float_repr : spec_float -> string;
  chat_init : pyobj -> pyobj -> pyobj -> option raised;
  chat_with_model : LlmChat -> pyobj -> pyobj -> option raised;
  user_message_init : pyobj -> option raised;
  chat_send_message : LlmChat -> UserMessage -> raised + string;
  clock : nat -> datetime
}.

(** ** Control flow: return, raise, exit *)

(** [sys.exit] raises [SystemExit], which is not an [Exception]: an
    [except Exception] clause lets it through, as it does the other
    exceptions that are not ([Abort]). *)
Inductive outcome (A : Type) : Type :=
| Return (a : A)
| Raise (e : exn)
| Abort (e : exn)
| SysExit (code : Z).
Arguments Return {A} a.
Arguments Raise {A} e.
Arguments Abort {A} e.
Arguments SysExit {A} code.

Definition Py (A : Type) : Type := list event -> outcome A * list event.

Definition py_ret {A : Type} (a : A) : Py A := fun log => (Return a, log).

Definition py_bind {A B : Type} (c : Py A) (k : A -> Py B) : Py B :=
  fun log =>
    match c log with
    | (Return a, log') => k a log'
    | (Raise e, log') => (Raise e, log')
    | (Abort e, log') => (Abort e, log')
    | (SysExit n, log') => (SysExit n, log')
    end.

#[export] Instance Monad_Py : Monad Py := {| ret := @py_ret; bind := @py_bind |}.

Definition emit (ev : event) : Py unit := fun log => (Return tt, (log ++ [ev])%list).

Definition raise {A : Type} (e : exn) : Py A := fun log => (Raise e, log).

Definition sys_exit {A : Type} (code : Z) : Py A := fun log => (SysExit code, log).

(** [try: body except Exception as e: handler e] *)
Definition try_except {A : Type} (body : Py A) (handler : exn -> Py A) : Py A :=
  fun log =>
    match body log with
    | (Raise e, log') => handler e log'
    | r => r
    end.

Definition lift_result {A : Type} (r : exn + A) : Py A :=
  match r with
  | inl e => raise e
  | inr a => ret a
  end.

Definition throw {A : Type} (x : raised) : Py A :=
  fun log =>
    match x with
    | Exc e => (Raise e, log)
    | BaseExc e => (Abort e, log)
    end.

(** The end of a call to the chat client. *)
Definition lift_call {A : Type} (r : raised + A) : Py A :=
  match r with
  | inl x => throw x
  | inr a => ret a
  end.

Definition lift_unit (r : option raised) : Py unit :=
  match r with
  | Some x => throw x
  | None => ret tt
  end.

(** ** The library calls of the script *)

Definition newline : string := String "010"%char "".

Section Script.

Variable w : World.

Definition print (s : string) : Py unit := emit (EvPrint s).

Definition json_dumps (v : pyobj) : string := Json.dumps (float_repr w) v.

Definition json_loads (s : string) : Py pyobj :=
  emit (EvJsonLoads s) ;; lift_result (decoder w s).

(** [os.getenv(key, default)], on the environment [load_dotenv()] has
    completed. *)
Definition os_getenv (key default : string) : string :=
  match lookup key (environ w) with
  | Some v => v
  | None => default
  end.

(** [obj.get(key, default)]: the method of a dict; the other values have
    no attribute [get]. *)
Definition get (obj : pyobj) (key : string) (default : pyobj) : Py pyobj :=
  match obj with
  | PyDict d =>
      ret (dict_get d key default)
  | _ =>
      raise (mkExn "AttributeError"
               ("'" ++ type_name obj ++ "' object has no attribute 'get'"))
  end.

Definition LlmChat_new (api_key session_id system_message : pyobj)
  : Py LlmChat :=
  emit (EvLlmChat api_key session_id system_message) ;;
  lift_unit (chat_init w api_key session_id system_message) ;;
  ret (mkLlmChat api_key session_id system_message None).

(** [chat.with_model(provider, model)] changes the chat object in place;
    the changed object is handed on. *)
Definition with_model (chat : LlmChat) (provider model : pyobj)
  : Py LlmChat :=
  emit (EvWithModel chat provider model) ;;
  lift_unit (chat_with_model w chat provider model) ;;
  ret (mkLlmChat (chat_api_key chat) (chat_session_id chat)
         (chat_system_message chat) (Some (provider, model))).

Definition UserMessage_new (message : pyobj) : Py UserMessage :=
  emit (EvUserMessage message) ;;
  lift_unit (user_message_init w message) ;;
  ret (mkUserMessage message).

Definition send_message (chat : LlmChat) (user_message : UserMessage)
  : Py string :=
  emit (EvSendMessage chat user_message) ;;
  lift_call (chat_send_message w chat user_message).

Definition datetime_now : Py datetime :=
  fun log => (Return (clock w (length log)), (log ++ [EvNow])%list).

(** ** The script *)

Definition main (argv : list string) : Py unit :=
  try_except
    ((if length argv <? 2
      then
        print (json_dumps (PyDict [("error", PyStr "No input provided")])) ;;
        sys_exit 1
      else ret tt) ;;

     input_data <- json_loads (nth 1 argv "") ;;

     session_id <- get input_data "sessionId" (PyStr "default") ;;
     message <- get input_data "message" (PyStr "") ;;
     provider <- get input_data "provider" (PyStr "openai") ;;
     model <- get input_data "model" (PyStr "gpt-4o-mini") ;;
     api_key <- get input_data "apiKey"
                  (PyStr (os_getenv "EMERGENT_LLM_KEY" "")) ;;
     system_message <- get input_data "systemMessage"
                         (PyStr "You are Shadow, an AI coding agent.") ;;

     (if negb (truthy message)
      then
        print (json_dumps (PyDict [("error", PyStr "No message provided")])) ;;
        sys_exit 1
      else ret tt) ;;

     (if negb (truthy api_key)
      then
        print (json_dumps (PyDict [("error", PyStr "No API key provided")])) ;;
        sys_exit 1
      else ret tt) ;;

     chat <- LlmChat_new api_key session_id system_message ;;
     chat <- with_model chat provider model ;;

     user_message <- UserMessage_new message ;;
     response <- send_message chat user_message ;;

     now <- datetime_now ;;
     print (json_dumps (PyDict [("success", PyBool true);
                                ("response", PyStr response);
                                ("timestamp", PyStr (Datetime.isoformat now))])))
    (fun e =>
       print (json_dumps (PyDict [("error", PyStr (exn_str e));
                                  ("type", PyStr (exn_class e))])) ;;
       sys_exit 1).

(** ** The process *)

(** What the parent process sees of [asyncio.run(main())]: the text on
    standard output, the traceback of an exception nothing caught, and the
    exit status. *)
Record result : Type := mkResult {
  stdout : string;
  traceback : option exn;
  exit_status : Z;
  events : list event
}.

Fixpoint stdout_of (log : list event) : string :=
  match log with
  | [] => ""
  | EvPrint s :: log' => s ++ newline ++ stdout_of log'
  | _ :: log' => stdout_of log'
  end.

Definition script (argv : list string) : result :=
  let (r, log) := main argv [] in
  {| stdout := stdout_of log;
     traceback :=
       match r with
       | Raise e | Abort e => Some e
       | _ => None
       end;
     exit_status :=
       match r with
       | Return _ => 0%Z
       | Raise _ | Abort _ => 1%Z
       | SysExit code => code
       end;
     events := log |}.

End Script.

(** ** Reading a timestamp back *)

Module Iso8601.

Local Open Scope N_scope.

Definition digit_value (c : ascii) : option N :=
  let n := N_of_ascii c in
  if (48 <=? n) && (n <=? 57) then Some (n - 48) else None.

Fixpoint read_digits (w : nat) (acc : N) (s : string) : option (N * string) :=
  match w, s with
  | O, _ => Some (acc, s)
  | S w', String c s' =>
      d <- digit_value c ;;
      read_digits w' (10 * acc + d) s'
  | S _, EmptyString => None
  end.

Definition expect (c : ascii) (s : string) : option string :=
  match s with
  | String c' s' => if Ascii.eqb c c' then Some s' else None
  | EmptyString => None
  end.

Definition read_fraction (s : string) : option N :=
  match s with
  | EmptyString => Some 0
  | _ =>
      s <- expect "." s ;;
      '(us, s) <- read_digits 6 0 s ;;
      match s with
      | EmptyString => Some us
      | _ => None
      end
  end.

(** The extended format of ISO 8601 for a local date and time,
    [YYYY-MM-DDThh:mm:ss] with an optional fraction of six digits; the
    fields must denote a date and a time of day that exist. *)
Definition parse (s : string) : option datetime :=
  '(y, s) <- read_digits 4 0 s ;;
  s <- expect "-" s ;;
  '(m, s) <- read_digits 2 0 s ;;
  s <- expect "-" s ;;
  '(d, s) <- read_digits 2 0 s ;;
  s <- expect "T" s ;;
  '(hh, s) <- read_digits 2 0 s ;;
  s <- expect ":" s ;;
  '(mm, s) <- read_digits 2 0 s ;;
  s <- expect ":" s ;;
  '(ss, s) <- read_digits 2 0 s ;;
  us <- read_fraction s ;;
  let t := mkDatetime y m d hh mm ss us in
  if Datetime.valid t then Some t else None.

End Iso8601.

(** ** Vocabulary of the statements *)

(** The six local variables [main] reads from the decoded object. *)
Record request : Type := mkRequest {
  session_id : pyobj;
  message : pyobj;
  provider : pyobj;
  model : pyobj;
  api_key : pyobj;
  system_message : pyobj
}.

Definition request_of (w : World) (d : list (string * pyobj)) : request :=
  {| session_id := dict_get d "sessionId" (PyStr "default");
     message := dict_get d "message" (PyStr "");
     provider := dict_get d "provider" (PyStr "openai");
     model := dict_get d "model" (PyStr "gpt-4o-mini");
     api_key := dict_get d "apiKey" (PyStr (os_getenv w "EMERGENT_LLM_KEY" ""));
     system_message :=
       dict_get d "systemMessage" (PyStr "You are Shadow, an AI coding agent.") |}.

(** The chat object as constructed, and as it is after [with_model]. *)
Definition fresh_chat (r : request) : LlmChat :=
  mkLlmChat (api_key r) (session_id r) (system_message r) None.

Definition chosen_chat (r : request) : LlmChat :=
  mkLlmChat (api_key r) (session_id r) (system_message r)
    (Some (provider r, model r)).

(** The calls [main] makes to the chat client when none of them raises. *)
Definition delegation (r : request) : list event :=
  [EvLlmChat (api_key r) (session_id r) (system_message r);
   EvWithModel (fresh_chat r) (provider r) (model r);
   EvUserMessage (message r);
   EvSendMessage (chosen_chat r) (mkUserMessage (message r))].

(** The chat client answers [R] to the request. *)
Definition collaborator_returns (w : World) (r : request) (R : string) : Prop :=
  chat_init w (api_key r) (session_id r) (system_message r) = None /\
  chat_with_model w (fresh_chat r) (provider r) (model r) = None /\
  user_message_init w (message r) = None /\
  chat_send_message w (chosen_chat r) (mkUserMessage (message r)) = inr R.

(** A call to the chat client raises [x]: the construction of the session,
    the choice of the model, the construction of the message or its
    submission (the call number [1] to [4]), the calls before having
    returned. *)
Inductive collaborator_throws (w : World) (r : request) (x : raised)
  : nat -> Prop :=
| raises_init :
    chat_init w (api_key r) (session_id r) (system_message r) = Some x ->
    collaborator_throws w r x 1
| raises_with_model :
    chat_init w (api_key r) (session_id r) (system_message r) = None ->
    chat_with_model w (fresh_chat r) (provider r) (model r) = Some x ->
    collaborator_throws w r x 2
| raises_user_message :
    chat_init w (api_key r) (session_id r) (system_message r) = None ->
    chat_with_model w (fresh_chat r) (provider r) (model r) = None ->
    user_message_init w (message r) = Some x ->
    collaborator_throws w r x 3
| raises_send_message :
    chat_init w (api_key r) (session_id r) (system_message r) = None ->
    chat_with_model w (fresh_chat r) (provider r) (model r) = None ->
    user_message_init w (message r) = None ->
    chat_send_message w (chosen_chat r) (mkUserMessage (message r)) = inl x ->
    collaborator_throws w r x 4.

(** The chat client raises the [Exception] [e]. *)
Definition collaborator_raises (w : World) (r : request) (e : exn) (n : nat)
  : Prop :=
  collaborator_throws w r (Exc e) n.

(** The chat client raises [e], which is not an [Exception]. *)
Definition collaborator_aborts (w : World) (r : request) (e : exn) (n : nat)
  : Prop :=
  collaborator_throws w r (BaseExc e) n.

Definition is_collaborator_call (ev : event) : bool :=
  match ev with
  | EvLlmChat _ _ _ | EvWithModel _ _ _ | EvUserMessage _ | EvSendMessage _ _ =>
      true
  | _ => false
  end.

Definition collaborator_calls (log : list event) : list event :=
  filter is_collaborator_call log.

Definition is_print (ev : event) : bool :=
  match ev with
  | EvPrint _ => true
  | _ => false
  end.

Definition is_json_loads (ev : event) : bool :=
  match ev with
  | EvJsonLoads _ => true
  | _ => false
  end.

(** The two shapes of a ChatResult, the failure with or without its
    category. *)
Inductive ChatResult : pyobj -> Prop :=
| ChatSuccess (response : string) (t : datetime) :
    ChatResult (PyDict [("success", PyBool true);
                        ("response", PyStr response);
                        ("timestamp", PyStr (Datetime.isoformat t))])
| ChatFailure (error : string) :
    ChatResult (PyDict [("error", PyStr error)])
| ChatFailureTyped (error category : string) :
    ChatResult (PyDict [("error", PyStr error); ("type", PyStr category)]).


(** The process that wrote the one line [json.dumps(obj)] on standard
    output, after the events [before], and ended with status [code] and no
    traceback. *)
Definition reported (w : World) (obj : pyobj) (code : Z) (before : list event)
  : result :=
  {| stdout := json_dumps w obj ++ newline;
     traceback := None;
     exit_status := code;
     events := (before ++ [EvPrint (json_dumps w obj)])%list |}.

Definition failure (error : string) : pyobj := PyDict [("error", PyStr error)].

Definition failure_of (e : exn) : pyobj :=
  PyDict [("error", PyStr (exn_str e)); ("type", PyStr (exn_class e))].

Definition success (response timestamp : string) : pyobj :=
  PyDict [("success", PyBool true);
          ("response", PyStr response);
          ("timestamp", PyStr timestamp)].

(** ** Sample invocations *)

Module Demo.

Definition q : string -> string := Json.quoted.

(** The request of the spec's scenario. *)
Definition request_hi : string :=
  "{" ++ q "message" ++ ": " ++ q "hi" ++ ", " ++ q "apiKey" ++ ": " ++ q "k" ++ "}".

Definition request_no_message : string := "{" ++ q "apiKey" ++ ": " ++ q "k" ++ "}".

Definition request_no_key : string := "{" ++ q "message" ++ ": " ++ q "hi" ++ "}".

Definition request_empty_key : string :=
  "{" ++ q "message" ++ ": " ++ q "hi" ++ ", " ++ q "apiKey" ++ ": " ++ q "" ++ "}".

Definition request_zero_message : string :=
  "{" ++ q "message" ++ ": 0, " ++ q "apiKey" ++ ": " ++ q "k" ++ "}".

Definition request_full : string :=
  "{" ++ q "sessionId" ++ ": " ++ q "s1" ++ ", " ++
  q "message" ++ ": " ++ q "hi" ++ ", " ++
  q "provider" ++ ": " ++ q "anthropic" ++ ", " ++
  q "model" ++ ": " ++ q "m1" ++ ", " ++
  q "apiKey" ++ ": " ++ q "k" ++ ", " ++
  q "systemMessage" ++ ": " ++ q "Be brief." ++ "}".

Definition truncated : string := "{".

Definition decode_error (msg : string) : exn := mkExn "JSONDecodeError" msg.

(** What [json.loads] answers on the texts above. *)
Definition decoded : list (string * (exn + pyobj)) :=
  [(request_hi, inr (PyDict [("message", PyStr "hi"); ("apiKey", PyStr "k")]));
   (request_no_message, inr (PyDict [("apiKey", PyStr "k")]));
   (request_no_key, inr (PyDict [("message", PyStr "hi")]));
   (request_empty_key,
     inr (PyDict [("message", PyStr "hi"); ("apiKey", PyStr "")]));
   (request_zero_message,
     inr (PyDict [("message", PyInt 0); ("apiKey", PyStr "k")]));
   (request_full,
     inr (PyDict [("sessionId", PyStr "s1"); ("message", PyStr "hi");
                  ("provider", PyStr "anthropic"); ("model", PyStr "m1");
                  ("apiKey", PyStr "k"); ("systemMessage", PyStr "Be brief.")]));
   ("{}", inr (PyDict []));
   ("[]", inr (PyList []));
   (truncated,
     inl (decode_error
            "Expecting property name enclosed in double quotes: line 1 column 2 (char 1)"))].

Definition loads (s : string) : exn + pyobj :=
  match lookup s decoded with
  | Some r => r
  | None => inl (decode_error "Expecting value: line 1 column 1 (char 0)")
  end.

(** [float.__repr__] on the values whose text is fixed; no sample prints a
    float. *)
Definition repr (f : spec_float) : string :=
  match f with
  | S754_zero false => "0.0"
  | S754_zero true => "-0.0"
  | S754_infinity false => "Infinity"
  | S754_infinity true => "-Infinity"
  | S754_nan => "NaN"
  | S754_finite _ _ _ => "1.0"
  end.

(** A clock that advances by one microsecond at each event, within one
    second. *)
Definition ticking (n : nat) : datetime :=
  mkDatetime 2024 1 15 10 30 0 (N.min (N.of_nat n) 999999).

(** A world whose chat client answers with [reply]. *)
Definition world_with (env : list (string * string)) (reply : raised + string)
  : World :=
  {| environ := env;
     decoder := loads;
     float_repr := repr;
     chat_init := fun _ _ _ => None;
     chat_with_model := fun _ _ _ => None;
     user_message_init := fun _ => None;
     chat_send_message := fun _ _ => reply;
     clock := ticking |}.

Definition echo : World := world_with [] (inr "hello").

Definition with_env_key : World :=
  world_with [("EMERGENT_LLM_KEY", "env-key")] (inr "hello").

Definition offline : World :=
  world_with [] (inl (Exc (mkExn "ConnectionError" "network is unreachable"))).

(** The submission is cancelled: [asyncio.CancelledError] is not an
    [Exception]. *)
Definition cancelled : World :=
  world_with [] (inl (BaseExc (mkExn "CancelledError" ""))).

(** The chat client raises an [Exception] of a class made by
    [type('', (Exception,), {})]. *)
Definition nameless : World :=
  world_with [] (inl (Exc (mkExn "" "boom"))).

(** A world whose chat client refuses the API key at construction. *)
Definition rejecting : World :=
  {| environ := [];
     decoder := loads;
     float_repr := repr;
     chat_init := fun _ _ _ => Some (Exc (mkExn "ValueError" "invalid API key"));
     chat_with_model := fun _ _ _ => None;
     user_message_init := fun _ => None;
     chat_send_message := fun _ _ => inr "hello";
     clock := ticking |}.

Definition prog : string := "llm_client.py".

End Demo.

(** ** The paths of one run *)


(** The message of the [AttributeError] raised by [v.get]. *)
Definition no_get (v : pyobj) : exn :=
  mkExn "AttributeError" ("'" ++ type_name v ++ "' object has no attribute 'get'").

(** The process that an exception nothing caught has ended, after the
    events [before]: nothing on standard output, a traceback, status 1. *)
Definition aborted (e : exn) (before : list event) : result :=
  {| stdout := "";
     traceback := Some e;
     exit_status := 1;
     events := before |}.

(** The ways through [main], each with what the process has done at its
    end: the exits of lines 16-18, 29-31 and 33-35, the [except] clause
    entered from [json.loads], from the first [get] or from the chat client,
    the exception of the chat client that the clause lets through, and the
    normal end. *)
Inductive run_of (w : World) (argv : list string) : result -> Prop :=
| run_no_input :
    length argv < 2 ->
    run_of w argv (reported w (failure "No input provided") 1 [])
| run_decode_error (a : string) (e : exn) :
    nth_error argv 1 = Some a ->
    decoder w a = inl e ->
    run_of w argv (reported w (failure_of e) 1 [EvJsonLoads a])
| run_not_dict (a : string) (v : pyobj) :
    nth_error argv 1 = Some a ->
    decoder w a = inr v ->
    (forall d, v <> PyDict d) ->
    run_of w argv (reported w (failure_of (no_get v)) 1 [EvJsonLoads a])
| run_no_message (a : string) (d : list (string * pyobj)) :
    nth_error argv 1 = Some a ->
    decoder w a = inr (PyDict d) ->
    truthy (message (request_of w d)) = false ->
    run_of w argv (reported w (failure "No message provided") 1 [EvJsonLoads a])
| run_no_api_key (a : string) (d : list (string * pyobj)) :
    nth_error argv 1 = Some a ->
    decoder w a = inr (PyDict d) ->
    truthy (message (request_of w d)) = true ->
    truthy (api_key (request_of w d)) = false ->
    run_of w argv (reported w (failure "No API key provided") 1 [EvJsonLoads a])
| run_raises (a : string) (d : list (string * pyobj)) (e : exn) (n : nat) :
    nth_error argv 1 = Some a ->
    decoder w a = inr (PyDict d) ->
    truthy (message (request_of w d)) = true ->
    truthy (api_key (request_of w d)) = true ->
    collaborator_raises w (request_of w d) e n ->
    run_of w argv
      (reported w (failure_of e) 1
         (EvJsonLoads a :: firstn n (delegation (request_of w d))))
| run_aborts (a : string) (d : list (string * pyobj)) (e : exn) (n : nat) :
    nth_error argv 1 = Some a ->
    decoder w a = inr (PyDict d) ->
    truthy (message (request_of w d)) = true ->
    truthy (api_key (request_of w d)) = true ->
    collaborator_aborts w (request_of w d) e n ->
    run_of w argv
      (aborted e (EvJsonLoads a :: firstn n (delegation (request_of w d))))
| run_success (a : string) (d : list (string * pyobj)) (R : string) :
    nth_error argv 1 = Some a ->
    decoder w a = inr (PyDict d) ->
    truthy (message (request_of w d)) = true ->
    truthy (api_key (request_of w d)) = true ->
    collaborator_returns w (request_of w d) R ->
    run_of w argv
      (reported w (success R (Datetime.isoformat (clock w 5))) 0
         (EvJsonLoads a :: delegation (request_of w d) ++ [EvNow])).

(** ** More sample invocations *)

Module Edge.

Import Demo.

Definition request_number : string :=
  "{" ++ q "message" ++ ": 5, " ++ q "apiKey" ++ ": " ++ q "k" ++ "}".

Definition request_null_key : string :=
  "{" ++ q "message" ++ ": " ++ q "hi" ++ ", " ++ q "apiKey" ++ ": null}".

Definition decoded : list (string * (exn + pyobj)) :=
  [(request_number, inr (PyDict [("message", PyInt 5); ("apiKey", PyStr "k")]));
   (request_null_key, inr (PyDict [("message", PyStr "hi"); ("apiKey", PyNone)]));
   ("null", inr PyNone)].

Definition loads (s : string) : exn + pyobj :=
  match lookup s decoded with
  | Some r => r
  | None => Demo.loads s
  end.

(** A world with [EMERGENT_LLM_KEY] set and a chat client that answers
    [hello]. *)
Definition world : World :=
  {| environ := [("EMERGENT_LLM_KEY", "env-key")];
     decoder := loads;
     float_repr := repr;
     chat_init := fun _ _ _ => None;
     chat_with_model := fun _ _ _ => None;
     user_message_init := fun _ => None;
     chat_send_message := fun _ _ => inr "hello";
     clock := ticking |}.

End Edge.

(** ** Reading a printed object back *)

Module JsonText.

Definition hex_value (c : ascii) : option nat :=
  let n := nat_of_ascii c in
  if (48 <=? n) && (n <=? 57) then Some (n - 48)
  else if (97 <=? n) && (n <=? 102) then Some (n - 87)
  else if (65 <=? n) && (n <=? 70) then Some (n - 55)
  else None.

(** The character a two-character escape stands for. *)
Definition short_escape (c : ascii) : option ascii :=
  let n := nat_of_ascii c in
  if n =? 34 then Some "034"%char
  else if n =? 92 then Some "\"%char
  else if n =? 47 then Some "/"%char
  else if n =? 98 then Some "008"%char
  else if n =? 102 then Some "012"%char
  else if n =? 110 then Some "010"%char
  else if n =? 114 then Some "013"%char
  else if n =? 116 then Some "009"%char
  else None.

Definition push (c : ascii) (r : option (string * string))
  : option (string * string) :=
  match r with
  | Some (v, rest) => Some (String c v, rest)
  | None => None
  end.

(** The characters of a string literal after its opening quote, up to the
    closing quote: the value of the literal and the text after it.  A
    control character must be escaped; a [\uXXXX] escape is read when its
    code point is below 256. *)
Fixpoint read_chars (s : string) : option (string * string) :=
  match s with
  | EmptyString => None
  | String c s1 =>
      if nat_of_ascii c =? 34 then Some ("", s1)
      else if nat_of_ascii c =? 92 then
        match s1 with
        | EmptyString => None
        | String e s2 =>
            match short_escape e with
            | Some x => push x (read_chars s2)
            | None =>
                if nat_of_ascii e =? 117 then
                  match s2 with
                  | String h1 (String h2 (String h3 (String h4 s3))) =>
                      match hex_value h1, hex_value h2, hex_value h3, hex_value h4 with
                      | Some a, Some b, Some c', Some d =>
                          let k := ((a * 16 + b) * 16 + c') * 16 + d in
                          if k <? 256 then push (ascii_of_nat k) (read_chars s3)
                          else None
                      | _, _, _, _ => None
                      end
                  | _ => None
                  end
                else None
            end
        end
      else if nat_of_ascii c <? 32 then None
      else push c (read_chars s1)
  end.

(** [s] without the prefix [p]. *)
Fixpoint strip (p s : string) : option string :=
  match p, s with
  | EmptyString, _ => Some s
  | String a p', String b s' => if Ascii.eqb a b then strip p' s' else None
  | String _ _, EmptyString => None
  end.

(** A string literal, [true], [false] or [null], and the text after it. *)
Definition read_value (s : string) : option (pyobj * string) :=
  match strip Json.dquote s with
  | Some s1 =>
      match read_chars s1 with
      | Some (v, rest) => Some (PyStr v, rest)
      | None => None
      end
  | None =>
      match strip "true" s, strip "false" s, strip "null" s with
      | Some rest, _, _ => Some (PyBool true, rest)
      | _, Some rest, _ => Some (PyBool false, rest)
      | _, _, Some rest => Some (PyNone, rest)
      | _, _, _ => None
      end
  end.

(** The members of an object up to its closing brace, at most [fuel] of
    them, with [": "] after a key and [", "] between members. *)
Fixpoint read_members (fuel : nat) (s : string)
  : option (list (string * pyobj) * string) :=
  match fuel with
  | O => None
  | S fuel' =>
      s1 <- strip Json.dquote s ;;
      '(k, s2) <- read_chars s1 ;;
      s3 <- strip ": " s2 ;;
      '(v, s4) <- read_value s3 ;;
      match strip ", " s4 with
      | Some s5 =>
          '(ms, rest) <- read_members fuel' s5 ;;
          Some ((k, v) :: ms, rest)
      | None =>
          rest <- strip "}" s4 ;;
          Some ([(k, v)], rest)
      end
  end.

(** A JSON text that is one object whose values are string literals,
    [true], [false] or [null], in the layout of [json.dumps]: the dict it
    denotes.  Every text it reads is JSON. *)
Definition read_object (s : string) : option pyobj :=
  s1 <- strip "{" s ;;
  match strip "}" s1 with
  | Some EmptyString => Some (PyDict [])
  | Some _ => None
  | None =>
      '(ms, rest) <- read_members (String.length s) s1 ;;
      match rest with
      | EmptyString => Some (PyDict ms)
      | _ => None
      end
  end.

End JsonText.

(** * Properties *)

#[local] Arguments json_dumps : simpl never.
#[local] Arguments Datetime.isoformat : simpl never.

(** ** Printed texts hold no line break *)

Section Printable.









End Printable.

(** ** A timestamp reads back as the time it was made from *)

Section Roundtrip.

Local Open Scope N_scope.

Lemma digit_value_digit (n : N) :
  n < 10 -> Iso8601.digit_value (Datetime.digit n) = Some n.
Proof.
  intros H. unfold Iso8601.digit_value, Datetime.digit.
  rewrite N_ascii_embedding by lia. cbv zeta.
  replace (48 <=? 48 + n) with true by (symmetry; apply N.leb_le; lia).
  replace (48 + n <=? 57) with true by (symmetry; apply N.leb_le; lia).
  replace (48 + n - 48) with n by lia. reflexivity.
Qed.

Lemma read_digits_zpad (w : nat) (n acc : N) (rest : string) :
  Iso8601.read_digits w acc (Datetime.zpad w n ++ rest) =
  Some (acc * 10 ^ N.of_nat w + n mod 10 ^ N.of_nat w, rest).
Proof.
  revert acc. induction w as [|w IH]; intros acc.
  - simpl. rewrite N.mod_1_r. do 2 f_equal. lia.
  - cbn [Datetime.zpad Iso8601.read_digits append].
    rewrite digit_value_digit by (apply N.mod_upper_bound; discriminate).
    cbn [bind Monad_option]. rewrite IH. do 2 f_equal.
    rewrite Nat2N.inj_succ, N.pow_succ_r'.
    rewrite (N.mul_comm 10 (10 ^ N.of_nat w)).
    rewrite N.Div0.mod_mul_r. lia.
Qed.

Lemma read_field (w : nat) (n : N) (rest : string) :
  n < 10 ^ N.of_nat w ->
  Iso8601.read_digits w 0 (Datetime.zpad w n ++ rest) = Some (n, rest).
Proof.
  intros H. rewrite read_digits_zpad, N.mod_small by exact H. reflexivity.
Qed.

Lemma append_empty_r (s : string) : (s ++ "")%string = s.
Proof. induction s as [|c s IH]; simpl; [|rewrite IH]; reflexivity. Qed.

Lemma read_fraction_isoformat (us : N) :
  us < 1000000 ->
  Iso8601.read_fraction
    (if us =? 0 then ""%string else String "." (Datetime.zpad 6 us)) =
  Some us.
Proof.
  intros H. destruct (N.eqb_spec us 0) as [->|Hne]; [reflexivity|].
  cbn [Iso8601.read_fraction Iso8601.expect Ascii.eqb Bool.eqb bind Monad_option].
  rewrite <- (append_empty_r (Datetime.zpad 6 us)).
  rewrite read_field by exact H. reflexivity.
Qed.

Theorem parse_isoformat (t : datetime) :
  Datetime.valid t = true -> Iso8601.parse (Datetime.isoformat t) = Some t.
Proof.
  intros V. pose proof V as V'. unfold Datetime.valid in V'.
  repeat rewrite andb_true_iff in V'. repeat rewrite N.leb_le in V'.
  destruct V' as [[[[[[[[[Hy1 Hy2] Hm1] Hm2] Hd1] Hd2] Hh] Hmi] Hs] Hus].
  assert (Hd3 : day t <= 31).
  { etransitivity; [exact Hd2|]. unfold Datetime.days_in_month.
    destruct (month t) as [|[[[[]|[]|]|[[]|[]|]|]|[[[]|[]|]|[[]|[]|]|]|]];
      try destruct (Datetime.is_leap _); lia. }
  unfold Iso8601.parse, Datetime.isoformat.
  repeat (rewrite read_field by (simpl; lia);
          cbn [bind Monad_option append Iso8601.expect Ascii.eqb Bool.eqb]).
  rewrite read_fraction_isoformat by lia.
  destruct t; cbn in V |- *. rewrite V. reflexivity.
Qed.

End Roundtrip.

(** ** A printed object reads back *)

Section ReadBack.

Import JsonText.






Section Member.

Variables (k vt : string) (v : pyobj).
Hypothesis Hvalue : forall rest, read_value (vt ++ rest) = Some (v, rest).




End Member.


Lemma length_three (a b c : ascii) (s : string) :
  exists n, String.length (String a (String b (String c s))) = S (S (S n)).
Proof. eexists. reflexivity. Qed.



End ReadBack.

(** ** The paths of [main] *)

Section Paths.

Variable w : World.

Lemma argv_split (argv : list string) (a : string) :
  nth_error argv 1 = Some a -> exists p rest, argv = p :: a :: rest.
Proof.
  destruct argv as [|p [|a' rest]]; simpl; try discriminate.
  intros [= ->]. eauto.
Qed.

Lemma script_no_input (argv : list string) :
  length argv < 2 ->
  script w argv = reported w (failure "No input provided") 1 [].
Proof.
  intros H. unfold script, main, try_except.
  destruct (Nat.ltb_spec (length argv) 2) as [_|H']; [reflexivity|lia].
Qed.

Lemma script_decode_error (argv : list string) (a : string) (e : exn) :
  nth_error argv 1 = Some a ->
  decoder w a = inl e ->
  script w argv = reported w (failure_of e) 1 [EvJsonLoads a].
Proof.
  intros Ha H. destruct (argv_split _ _ Ha) as (p & rest & ->).
  unfold script, main, try_except. cbn. rewrite H. reflexivity.
Qed.

Lemma script_not_dict (argv : list string) (a : string) (v : pyobj) :
  nth_error argv 1 = Some a ->
  decoder w a = inr v ->
  (forall d, v <> PyDict d) ->
  script w argv =
  reported w
    (failure_of (mkExn "AttributeError"
                   ("'" ++ type_name v ++ "' object has no attribute 'get'")))
    1 [EvJsonLoads a].
Proof.
  intros Ha H Hv. destruct (argv_split _ _ Ha) as (p & rest & ->).
  unfold script, main, try_except. cbn. rewrite H.
  destruct v; try reflexivity. destruct (Hv d eq_refl).
Qed.

Variables (argv : list string) (a : string) (d : list (string * pyobj)).
Hypothesis Hargv : nth_error argv 1 = Some a.
Hypothesis Hdecoded : decoder w a = inr (PyDict d).

Local Abbreviation r := (request_of w d).

Lemma script_no_message :
  truthy (message r) = false ->
  script w argv = reported w (failure "No message provided") 1 [EvJsonLoads a].
Proof.
  intros Hm. destruct (argv_split _ _ Hargv) as (p & rest & ->).
  unfold script, main, try_except. cbn. rewrite Hdecoded. cbn.
  cbn in Hm. rewrite Hm. reflexivity.
Qed.

Lemma script_no_api_key :
  truthy (message r) = true ->
  truthy (api_key r) = false ->
  script w argv = reported w (failure "No API key provided") 1 [EvJsonLoads a].
Proof.
  intros Hm Hk. destruct (argv_split _ _ Hargv) as (p & rest & ->).
  unfold script, main, try_except. cbn. rewrite Hdecoded. cbn.
  cbn in Hm, Hk. rewrite Hm, Hk. reflexivity.
Qed.

Lemma script_collaborator_raises (e : exn) (n : nat) :
  truthy (message r) = true ->
  truthy (api_key r) = true ->
  collaborator_raises w r e n ->
  script w argv =
  reported w (failure_of e) 1 (EvJsonLoads a :: firstn n (delegation r)).
Proof.
  intros Hm Hk Hc. destruct (argv_split _ _ Hargv) as (p & rest & ->).
  unfold script, main, try_except. cbn. rewrite Hdecoded. cbn.
  cbn in Hm, Hk. rewrite Hm, Hk. cbn.
  destruct Hc as [H1|H1 H2|H1 H2 H3|H1 H2 H3 H4];
    cbn in *; unfold fresh_chat, chosen_chat in *; cbn in *;
    rewrite ?H1; cbn; rewrite ?H2; cbn; rewrite ?H3; cbn; rewrite ?H4;
    reflexivity.
Qed.

Lemma script_collaborator_aborts (e : exn) (n : nat) :
  truthy (message r) = true ->
  truthy (api_key r) = true ->
  collaborator_aborts w r e n ->
  script w argv = aborted e (EvJsonLoads a :: firstn n (delegation r)).
Proof.
  intros Hm Hk Hc. destruct (argv_split _ _ Hargv) as (p & rest & ->).
  unfold script, main, try_except. cbn. rewrite Hdecoded. cbn.
  cbn in Hm, Hk. rewrite Hm, Hk. cbn.
  destruct Hc as [H1|H1 H2|H1 H2 H3|H1 H2 H3 H4];
    cbn in *; unfold fresh_chat, chosen_chat in *; cbn in *;
    rewrite ?H1; cbn; rewrite ?H2; cbn; rewrite ?H3; cbn; rewrite ?H4;
    reflexivity.
Qed.

Lemma script_success (R : string) :
  truthy (message r) = true ->
  truthy (api_key r) = true ->
  collaborator_returns w r R ->
  script w argv =
  reported w (success R (Datetime.isoformat (clock w 5))) 0
    (EvJsonLoads a :: delegation r ++ [EvNow]).
Proof.
  intros Hm Hk (H1 & H2 & H3 & H4). destruct (argv_split _ _ Hargv) as (p & rest & ->).
  unfold script, main, try_except. cbn. rewrite Hdecoded. cbn.
  cbn in Hm, Hk. rewrite Hm, Hk. cbn.
  unfold fresh_chat, chosen_chat in *; cbn in *.
  rewrite H1; cbn; rewrite H2; cbn; rewrite H3; cbn; rewrite H4.
  reflexivity.
Qed.

End Paths.

(** ** What the chat client can answer *)

Section Answers.

Variables (w : World) (r : request).

Lemma collaborator_returns_or_throws :
  (exists R, collaborator_returns w r R) \/
  (exists x n, collaborator_throws w r x n).
Proof.
  destruct (chat_init w (api_key r) (session_id r) (system_message r))
    as [x|] eqn:H1; [right; exists x, 1; now constructor|].
  destruct (chat_with_model w (fresh_chat r) (provider r) (model r))
    as [x|] eqn:H2; [right; exists x, 2; now constructor|].
  destruct (user_message_init w (message r))
    as [x|] eqn:H3; [right; exists x, 3; now constructor|].
  destruct (chat_send_message w (chosen_chat r) (mkUserMessage (message r)))
    as [x|R] eqn:H4; [right; exists x, 4; now constructor|].
  left. exists R. repeat split; assumption.
Qed.

Lemma collaborator_answers :
  (exists R, collaborator_returns w r R) \/
  (exists e n, collaborator_raises w r e n) \/
  (exists e n, collaborator_aborts w r e n).
Proof.
  destruct collaborator_returns_or_throws as [HR|([e|e] & n & Hx)].
  - left. exact HR.
  - right. left. exists e, n. exact Hx.
  - right. right. exists e, n. exact Hx.
Qed.

Lemma collaborator_throws_stage (x : raised) (n : nat) :
  collaborator_throws w r x n -> 1 <= n <= 4.
Proof. intros []; lia. Qed.

Lemma collaborator_raises_stage (e : exn) (n : nat) :
  collaborator_raises w r e n -> 1 <= n <= 4.
Proof. apply collaborator_throws_stage. Qed.

Lemma calls_of_prefix (n : nat) (before after : list event) :
  collaborator_calls before = [] ->
  collaborator_calls after = [] ->
  collaborator_calls (before ++ firstn n (delegation r) ++ after) =
  firstn n (delegation r).
Proof.
  intros Hb Ha. unfold collaborator_calls in *.
  rewrite !filter_app, Hb, Ha, app_nil_r. simpl.
  do 5 (destruct n as [|n]; [reflexivity|]). reflexivity.
Qed.

Lemma prints_of_prefix (n : nat) :
  filter is_print (firstn n (delegation r)) = [].
Proof. do 5 (destruct n as [|n]; [reflexivity|]). reflexivity. Qed.

End Answers.

(** ** The sample clock *)

Lemma ticking_valid (n : nat) : Datetime.valid (Demo.ticking n) = true.
Proof.
  unfold Datetime.valid, Demo.ticking. cbn.
  apply N.leb_le. lia.
Qed.

Lemma ticking_monotone (i j : nat) :
  i <= j -> Datetime.leb (Demo.ticking i) (Demo.ticking j) = true.
Proof.
  intros H. unfold Datetime.leb, Demo.ticking, Datetime.fields. cbn.
  rewrite andb_true_r.
  destruct (N.ltb_spec (N.min (N.of_nat i) 999999) (N.min (N.of_nat j) 999999))
    as [|H']; [reflexivity|].
  apply N.eqb_eq. lia.
Qed.

(** * The claims *)

Section Claims.

Variable w : World.
Variables (argv : list string) (a : string).

(** C6: an invocation with no argument after the program name writes
    exactly the object [{"error": "No input provided"}] on standard output
    and exits with status 1; it is the only event of the process, so the
    decoder is never called. *)
Theorem missing_argument_rejected :
  length argv < 2 ->
  script w argv = reported w (failure "No input provided") 1 [] /\
  stdout (script w argv) =
    "{" ++ Json.quoted "error" ++ ": " ++ Json.quoted "No input provided" ++ "}"
    ++ newline /\
  exit_status (script w argv) = 1%Z /\
  filter is_json_loads (events (script w argv)) = [].
Proof.
  intros H. rewrite (script_no_input w argv H). repeat split.
Qed.

(** C1 (amended): when the argument is present and the decoder raises [e]
    on it, the failure is caught by the handler's own [except] clause:
    the process writes exactly [{"error": str(e), "type": type(e).__name__}]
    on standard output, leaves no traceback, exits with status 1 and never
    calls the chat client. *)
Theorem malformed_json_is_reported (e : exn) :
  nth_error argv 1 = Some a ->
  decoder w a = inl e ->
  script w argv = reported w (failure_of e) 1 [EvJsonLoads a] /\
  stdout (script w argv) =
    json_dumps w (PyDict [("error", PyStr (exn_str e));
                          ("type", PyStr (exn_class e))]) ++ newline /\
  traceback (script w argv) = None /\
  exit_status (script w argv) = 1%Z /\
  collaborator_calls (events (script w argv)) = [].
Proof.
  intros Ha He. rewrite (script_decode_error w argv a e Ha He). repeat split.
Qed.

Variable d : list (string * pyobj).
Local Abbreviation r := (request_of w d).

(** C2: for a decoded object with a non-empty message and an API key, when
    the chat client returns [R] the process writes exactly
    [{"success": true, "response": R, "timestamp": T}] and exits with
    status 0, where [T] reads back as a valid ISO 8601 time that lies
    between the clock at the start and the clock at the end of the
    invocation. *)
Theorem success_response (R : string) :
  nth_error argv 1 = Some a ->
  decoder w a = inr (PyDict d) ->
  truthy (message r) = true ->
  truthy (api_key r) = true ->
  collaborator_returns w r R ->
  (forall n, Datetime.valid (clock w n) = true) ->
  (forall i j, i <= j -> Datetime.leb (clock w i) (clock w j) = true) ->
  exists (T : string) (t : datetime),
    stdout (script w argv) =
      json_dumps w (PyDict [("success", PyBool true);
                            ("response", PyStr R);
                            ("timestamp", PyStr T)]) ++ newline /\
    exit_status (script w argv) = 0%Z /\
    traceback (script w argv) = None /\
    Iso8601.parse T = Some t /\
    Datetime.leb (clock w 0) t = true /\
    Datetime.leb t (clock w (length (events (script w argv)))) = true.
Proof.
  intros Ha Hd Hm Hk Hr Hvalid Hmono.
  rewrite (script_success w argv a d Ha Hd R Hm Hk Hr).
  exists (Datetime.isoformat (clock w 5)), (clock w 5).
  repeat split.
  - apply parse_isoformat, Hvalid.
  - apply Hmono. lia.
  - apply Hmono. cbn. lia.
Qed.

(** C3 (amended): when a call to the chat client raises an [Exception]
    [e] (the construction of the session, the choice of the model, the
    construction of the message or its submission), the process writes
    exactly [{"error": str(e), "type": type(e).__name__}], this once, and
    exits with status 1 and no traceback; the category is the name of the
    class of [e] as it is, empty when that name is. *)
Theorem collaborator_failure_reported (e : exn) (n : nat) :
  nth_error argv 1 = Some a ->
  decoder w a = inr (PyDict d) ->
  truthy (message r) = true ->
  truthy (api_key r) = true ->
  collaborator_raises w r e n ->
  stdout (script w argv) =
    json_dumps w (PyDict [("error", PyStr (exn_str e));
                          ("type", PyStr (exn_class e))]) ++ newline /\
  exit_status (script w argv) = 1%Z /\
  traceback (script w argv) = None /\
  filter is_print (events (script w argv)) =
    [EvPrint (json_dumps w (PyDict [("error", PyStr (exn_str e));
                                    ("type", PyStr (exn_class e))]))].
Proof.
  intros Ha Hd Hm Hk Hr.
  rewrite (script_collaborator_raises w argv a d Ha Hd e n Hm Hk Hr).
  repeat split.
  cbn. rewrite filter_app, prints_of_prefix. reflexivity.
Qed.

(** C4: for a decoded object whose message is absent or the empty string,
    the process writes exactly [{"error": "No message provided"}], with no
    category, and exits with status 1, whatever the other fields and the
    environment hold: the API key is not looked at. *)
Theorem missing_message_rejected :
  nth_error argv 1 = Some a ->
  decoder w a = inr (PyDict d) ->
  lookup "message" d = None \/ lookup "message" d = Some (PyStr "") ->
  script w argv = reported w (failure "No message provided") 1 [EvJsonLoads a] /\
  stdout (script w argv) =
    "{" ++ Json.quoted "error" ++ ": " ++ Json.quoted "No message provided" ++ "}"
    ++ newline /\
  exit_status (script w argv) = 1%Z.
Proof.
  intros Ha Hd Hm.
  assert (E : truthy (message r) = false).
  { cbn. unfold dict_get. destruct Hm as [-> | ->]; reflexivity. }
  rewrite (script_no_message w argv a d Ha Hd E). repeat split.
Qed.

(** C5: for a decoded object with a non-empty message and no [apiKey],
    when the variable [EMERGENT_LLM_KEY] is absent from the environment or
    empty, the process writes exactly [{"error": "No API key provided"}],
    with no category, and exits with status 1. *)
Theorem missing_api_key_rejected :
  nth_error argv 1 = Some a ->
  decoder w a = inr (PyDict d) ->
  truthy (message r) = true ->
  lookup "apiKey" d = None ->
  lookup "EMERGENT_LLM_KEY" (environ w) = None \/
  lookup "EMERGENT_LLM_KEY" (environ w) = Some "" ->
  script w argv = reported w (failure "No API key provided") 1 [EvJsonLoads a] /\
  stdout (script w argv) =
    "{" ++ Json.quoted "error" ++ ": " ++ Json.quoted "No API key provided" ++ "}"
    ++ newline /\
  exit_status (script w argv) = 1%Z.
Proof.
  intros Ha Hd Hm Hk Henv.
  assert (E : truthy (api_key r) = false).
  { cbn. unfold dict_get, os_getenv. rewrite Hk.
    destruct Henv as [-> | ->]; reflexivity. }
  rewrite (script_no_api_key w argv a d Ha Hd Hm E). repeat split.
Qed.

(** C9: the environment is consulted only when the decoded object has no
    [apiKey]: with a non-empty message and [apiKey] present and empty, the
    process fails with [{"error": "No API key provided"}] and status 1
    whatever [EMERGENT_LLM_KEY] holds. *)
Theorem empty_api_key_not_replaced :
  nth_error argv 1 = Some a ->
  decoder w a = inr (PyDict d) ->
  truthy (message r) = true ->
  lookup "apiKey" d = Some (PyStr "") ->
  api_key r = PyStr "" /\
  script w argv = reported w (failure "No API key provided") 1 [EvJsonLoads a] /\
  stdout (script w argv) =
    "{" ++ Json.quoted "error" ++ ": " ++ Json.quoted "No API key provided" ++ "}"
    ++ newline /\
  exit_status (script w argv) = 1%Z.
Proof.
  intros Ha Hd Hm Hk.
  assert (E : api_key r = PyStr "").
  { cbn. unfold dict_get. rewrite Hk. reflexivity. }
  split; [exact E|].
  assert (E' : truthy (api_key r) = false) by (rewrite E; reflexivity).
  rewrite (script_no_api_key w argv a d Ha Hd Hm E'). repeat split.
Qed.

(** C10: the test on the message is a truth test: a message that is
    present and falsy, of whatever type ([0], [false], [null], [[]] and
    [{}] are), makes the process write [{"error": "No message provided"}]
    and exit with status 1, and the chat client is not called. *)
Theorem falsy_message_rejected (v : pyobj) :
  nth_error argv 1 = Some a ->
  decoder w a = inr (PyDict d) ->
  lookup "message" d = Some v ->
  truthy v = false ->
  script w argv = reported w (failure "No message provided") 1 [EvJsonLoads a] /\
  stdout (script w argv) =
    "{" ++ Json.quoted "error" ++ ": " ++ Json.quoted "No message provided" ++ "}"
    ++ newline /\
  exit_status (script w argv) = 1%Z /\
  collaborator_calls (events (script w argv)) = [] /\
  Forall (fun x => truthy x = false)
    [PyInt 0; PyBool false; PyNone; PyList []; PyDict []].
Proof.
  intros Ha Hd Hv Hf.
  assert (E : truthy (message r) = false).
  { cbn. unfold dict_get. rewrite Hv. exact Hf. }
  rewrite (script_no_message w argv a d Ha Hd E).
  repeat split. repeat constructor.
Qed.

(** C7: for a decoded object that passes both checks, the calls to the
    chat client are the four of [delegation], each once and in this
    order: one session constructed from the API key, [sessionId] and
    [systemMessage], one choice of [provider] and [model], one message,
    one submission; a call that raises ends the sequence, nothing is
    called again.  A field absent from the object has its literal
    default. *)
Theorem single_collaborator_attempt :
  nth_error argv 1 = Some a ->
  decoder w a = inr (PyDict d) ->
  truthy (message r) = true ->
  truthy (api_key r) = true ->
  (forall R, collaborator_returns w r R ->
     collaborator_calls (events (script w argv)) = delegation r) /\
  (forall e n, collaborator_raises w r e n ->
     collaborator_calls (events (script w argv)) = firstn n (delegation r)) /\
  (forall e n, collaborator_aborts w r e n ->
     collaborator_calls (events (script w argv)) = firstn n (delegation r)) /\
  (exists n, 1 <= n <= 4 /\
     collaborator_calls (events (script w argv)) = firstn n (delegation r)) /\
  (lookup "sessionId" d = None -> session_id r = PyStr "default") /\
  (lookup "systemMessage" d = None ->
     system_message r = PyStr "You are Shadow, an AI coding agent.") /\
  (lookup "provider" d = None -> provider r = PyStr "openai") /\
  (lookup "model" d = None -> model r = PyStr "gpt-4o-mini") /\
  (forall v, lookup "sessionId" d = Some v -> session_id r = v) /\
  (forall v, lookup "systemMessage" d = Some v -> system_message r = v) /\
  (forall v, lookup "provider" d = Some v -> provider r = v) /\
  (forall v, lookup "model" d = Some v -> model r = v).
Proof.
  intros Ha Hd Hm Hk.
  assert (Hret : forall R, collaborator_returns w r R ->
            collaborator_calls (events (script w argv)) = delegation r).
  { intros R HR. rewrite (script_success w argv a d Ha Hd R Hm Hk HR). reflexivity. }
  assert (Hraise : forall e n, collaborator_raises w r e n ->
            collaborator_calls (events (script w argv)) = firstn n (delegation r)).
  { intros e n He.
    rewrite (script_collaborator_raises w argv a d Ha Hd e n Hm Hk He).
    unfold reported, events.
    change ((EvJsonLoads a :: firstn n (delegation r)) ++ ?l)%list
      with ([EvJsonLoads a] ++ firstn n (delegation r) ++ l)%list.
    apply calls_of_prefix; reflexivity. }
  assert (Habort : forall e n, collaborator_aborts w r e n ->
            collaborator_calls (events (script w argv)) = firstn n (delegation r)).
  { intros e n He.
    rewrite (script_collaborator_aborts w argv a d Ha Hd e n Hm Hk He).
    unfold aborted, events.
    rewrite <- (app_nil_r (firstn n (delegation r))) at 1.
    change (EvJsonLoads a :: firstn n (delegation r) ++ [])%list
      with ([EvJsonLoads a] ++ firstn n (delegation r) ++ [])%list.
    apply calls_of_prefix; reflexivity. }
  split; [exact Hret|]. split; [exact Hraise|]. split; [exact Habort|]. split.
  - destruct (collaborator_answers w r) as [[R HR]|[(e & n & He)|(e & n & He)]].
    + exists 4. split; [lia|]. rewrite (Hret R HR). reflexivity.
    + exists n. split; [exact (collaborator_raises_stage w r e n He)|].
      exact (Hraise e n He).
    + exists n. split; [exact (collaborator_throws_stage w r _ n He)|].
      exact (Habort e n He).
  - cbn; unfold dict_get.
    repeat split; intros; repeat match goal with H : lookup _ d = _ |- _ => rewrite H end; reflexivity.
Qed.

End Claims.


Section OneLine.

Variable w : World.



End OneLine.

(** * The claims on the sample invocations *)

Section Samples.

Import Demo.

Local Abbreviation error_line msg :=
  ("{" ++ q "error" ++ ": " ++ q msg ++ "}" ++ newline).

(** The script called with the program name only. *)
Lemma missing_argument_rejected_witness :
  script echo [prog] = reported echo (failure "No input provided") 1 [] /\
  stdout (script echo [prog]) = error_line "No input provided" /\
  exit_status (script echo [prog]) = 1%Z /\
  filter is_json_loads (events (script echo [prog])) = [].
Proof.
  apply (missing_argument_rejected echo [prog]). simpl. lia.
Defined.

(** C1 as stated fails on the argument [{]: the decoder raises, the
    process leaves no traceback and standard output holds a ChatResult
    failure with its category. *)
Lemma malformed_json_counterexample :
  decoder echo truncated =
    inl (decode_error
           "Expecting property name enclosed in double quotes: line 1 column 2 (char 1)") /\
  traceback (script echo [prog; truncated]) = None /\
  stdout (script echo [prog; truncated]) =
    "{" ++ q "error" ++ ": " ++
    q "Expecting property name enclosed in double quotes: line 1 column 2 (char 1)"
    ++ ", " ++ q "type" ++ ": " ++ q "JSONDecodeError" ++ "}" ++ newline /\
  (exists obj, ChatResult obj /\
     stdout (script echo [prog; truncated]) = json_dumps echo obj ++ newline) /\
  ~ (forall (w : World) (argv : list string) (a : string) (e : exn),
       nth_error argv 1 = Some a ->
       decoder w a = inl e ->
       traceback (script w argv) = Some e /\ stdout (script w argv) = "").
Proof.
  split; [reflexivity|]. split; [reflexivity|]. split; [reflexivity|]. split.
  - eexists. split; [apply ChatFailureTyped|reflexivity].
  - intros H.
    destruct (H echo [prog; truncated] truncated _ eq_refl eq_refl) as [H1 _].
    discriminate H1.
Qed.

Lemma malformed_json_is_reported_witness :
  stdout (script echo [prog; truncated]) =
    "{" ++ q "error" ++ ": " ++
    q "Expecting property name enclosed in double quotes: line 1 column 2 (char 1)"
    ++ ", " ++ q "type" ++ ": " ++ q "JSONDecodeError" ++ "}" ++ newline /\
  exit_status (script echo [prog; truncated]) = 1%Z.
Proof.
  destruct (malformed_json_is_reported echo [prog; truncated] truncated
              (decode_error
                 "Expecting property name enclosed in double quotes: line 1 column 2 (char 1)")
              eq_refl eq_refl)
    as (_ & Hout & _ & Hexit & _).
  split; [exact Hout|exact Hexit].
Defined.

(** The scenario of the spec: [{"message": "hi", "apiKey": "k"}] and a
    chat client that answers [hello]. *)
Lemma success_response_witness :
  exists (T : string) (t : datetime),
    stdout (script echo [prog; request_hi]) =
      json_dumps echo (PyDict [("success", PyBool true);
                               ("response", PyStr "hello");
                               ("timestamp", PyStr T)]) ++ newline /\
    exit_status (script echo [prog; request_hi]) = 0%Z /\
    traceback (script echo [prog; request_hi]) = None /\
    Iso8601.parse T = Some t /\
    Datetime.leb (clock echo 0) t = true /\
    Datetime.leb t (clock echo (length (events (script echo [prog; request_hi])))) = true.
Proof.
  apply (success_response echo [prog; request_hi] request_hi
           [("message", PyStr "hi"); ("apiKey", PyStr "k")] "hello");
    try reflexivity.
  - repeat split.
  - exact ticking_valid.
  - exact ticking_monotone.
Defined.

(** C3 as stated fails twice.  An [Exception] of a class without a name
    is reported with the empty category; an exception that is not an
    [Exception] is not reported at all. *)
Lemma collaborator_failure_counterexample :
  collaborator_raises nameless
    (request_of nameless [("message", PyStr "hi"); ("apiKey", PyStr "k")])
    (mkExn "" "boom") 4 /\
  stdout (script nameless [prog; request_hi]) =
    "{" ++ q "error" ++ ": " ++ q "boom" ++ ", " ++ q "type" ++ ": " ++ q "" ++ "}"
    ++ newline /\
  JsonText.read_object
    ("{" ++ q "error" ++ ": " ++ q "boom" ++ ", " ++ q "type" ++ ": " ++ q "" ++ "}") =
    Some (PyDict [("error", PyStr "boom"); ("type", PyStr "")]) /\
  collaborator_aborts cancelled
    (request_of cancelled [("message", PyStr "hi"); ("apiKey", PyStr "k")])
    (mkExn "CancelledError" "") 4 /\
  stdout (script cancelled [prog; request_hi]) = "" /\
  traceback (script cancelled [prog; request_hi]) =
    Some (mkExn "CancelledError" "").
Proof.
  split; [apply raises_send_message; reflexivity|].
  split; [reflexivity|]. split; [reflexivity|].
  split; [apply raises_send_message; reflexivity|].
  split; reflexivity.
Qed.

Lemma collaborator_failure_reported_witness :
  stdout (script offline [prog; request_hi]) =
    "{" ++ q "error" ++ ": " ++ q "network is unreachable" ++ ", " ++
    q "type" ++ ": " ++ q "ConnectionError" ++ "}" ++ newline /\
  exit_status (script offline [prog; request_hi]) = 1%Z /\
  traceback (script offline [prog; request_hi]) = None.
Proof.
  destruct (collaborator_failure_reported offline [prog; request_hi] request_hi
              [("message", PyStr "hi"); ("apiKey", PyStr "k")]
              (mkExn "ConnectionError" "network is unreachable") 4
              eq_refl eq_refl eq_refl eq_refl)
    as (Hout & Hexit & Htb & _).
  - apply raises_send_message; reflexivity.
  - split; [exact Hout|]. split; [exact Hexit|exact Htb].
Defined.

(** Neither a message nor an API key: the message check answers. *)
Lemma missing_message_rejected_witness :
  stdout (script echo [prog; "{}"]) = error_line "No message provided" /\
  exit_status (script echo [prog; "{}"]) = 1%Z.
Proof.
  destruct (missing_message_rejected echo [prog; "{}"] "{}" [] eq_refl eq_refl
              (or_introl eq_refl))
    as (_ & Hout & Hexit).
  split; [exact Hout|exact Hexit].
Defined.

Lemma missing_api_key_rejected_witness :
  stdout (script echo [prog; request_no_key]) = error_line "No API key provided" /\
  exit_status (script echo [prog; request_no_key]) = 1%Z.
Proof.
  destruct (missing_api_key_rejected echo [prog; request_no_key] request_no_key
              [("message", PyStr "hi")] eq_refl eq_refl eq_refl eq_refl
              (or_introl eq_refl))
    as (_ & Hout & Hexit).
  split; [exact Hout|exact Hexit].
Defined.

(** [EMERGENT_LLM_KEY] is set, the request carries an empty [apiKey]. *)
Lemma empty_api_key_not_replaced_witness :
  lookup "EMERGENT_LLM_KEY" (environ with_env_key) = Some "env-key" /\
  stdout (script with_env_key [prog; request_empty_key]) =
    error_line "No API key provided" /\
  exit_status (script with_env_key [prog; request_empty_key]) = 1%Z.
Proof.
  destruct (empty_api_key_not_replaced with_env_key [prog; request_empty_key]
              request_empty_key
              [("message", PyStr "hi"); ("apiKey", PyStr "")]
              eq_refl eq_refl eq_refl eq_refl)
    as (_ & _ & Hout & Hexit).
  split; [reflexivity|]. split; [exact Hout|exact Hexit].
Defined.

Lemma falsy_message_rejected_witness :
  stdout (script echo [prog; request_zero_message]) =
    error_line "No message provided" /\
  exit_status (script echo [prog; request_zero_message]) = 1%Z /\
  collaborator_calls (events (script echo [prog; request_zero_message])) = [].
Proof.
  destruct (falsy_message_rejected echo [prog; request_zero_message]
              request_zero_message
              [("message", PyInt 0); ("apiKey", PyStr "k")] (PyInt 0)
              eq_refl eq_refl eq_refl eq_refl)
    as (_ & Hout & Hexit & Hcalls & _).
  split; [exact Hout|]. split; [exact Hexit|exact Hcalls].
Defined.

(** The defaults on the short request; and a chat client that refuses the
    session: one call, no other. *)
Lemma single_collaborator_attempt_witness :
  collaborator_calls (events (script echo [prog; request_hi])) =
    [EvLlmChat (PyStr "k") (PyStr "default")
       (PyStr "You are Shadow, an AI coding agent.");
     EvWithModel
       (mkLlmChat (PyStr "k") (PyStr "default")
          (PyStr "You are Shadow, an AI coding agent.") None)
       (PyStr "openai") (PyStr "gpt-4o-mini");
     EvUserMessage (PyStr "hi");
     EvSendMessage
       (mkLlmChat (PyStr "k") (PyStr "default")
          (PyStr "You are Shadow, an AI coding agent.")
          (Some (PyStr "openai", PyStr "gpt-4o-mini")))
       (mkUserMessage (PyStr "hi"))] /\
  collaborator_calls (events (script rejecting [prog; request_hi])) =
    [EvLlmChat (PyStr "k") (PyStr "default")
       (PyStr "You are Shadow, an AI coding agent.")].
Proof.
  split.
  - destruct (single_collaborator_attempt echo [prog; request_hi] request_hi
                [("message", PyStr "hi"); ("apiKey", PyStr "k")]
                eq_refl eq_refl eq_refl eq_refl)
      as (Hret & _).
    apply (Hret "hello"). repeat split.
  - destruct (single_collaborator_attempt rejecting [prog; request_hi] request_hi
                [("message", PyStr "hi"); ("apiKey", PyStr "k")]
                eq_refl eq_refl eq_refl eq_refl)
      as (_ & Hraise & _).
    apply (Hraise (mkExn "ValueError" "invalid API key") 1).
    apply raises_init. reflexivity.
Defined.



(** The two scenarios of the spec, and a request that sets every field. *)
Example scenario_hello :
  script echo [prog; request_hi] =
  {| stdout :=
       "{" ++ q "success" ++ ": true, " ++ q "response" ++ ": " ++ q "hello" ++
       ", " ++ q "timestamp" ++ ": " ++ q "2024-01-15T10:30:00.000005" ++ "}" ++
       newline;
     traceback := None;
     exit_status := 0;
     events :=
       (EvJsonLoads request_hi ::
        delegation (request_of echo [("message", PyStr "hi"); ("apiKey", PyStr "k")]) ++
        [EvNow;
         EvPrint
           ("{" ++ q "success" ++ ": true, " ++ q "response" ++ ": " ++ q "hello" ++
            ", " ++ q "timestamp" ++ ": " ++ q "2024-01-15T10:30:00.000005" ++ "}")])%list
  |}.
Proof. reflexivity. Qed.

Example scenario_no_message :
  stdout (script echo [prog; request_no_message]) = error_line "No message provided" /\
  exit_status (script echo [prog; request_no_message]) = 1%Z.
Proof. split; reflexivity. Qed.

Example scenario_full :
  collaborator_calls (events (script echo [prog; request_full])) =
    [EvLlmChat (PyStr "k") (PyStr "s1") (PyStr "Be brief.");
     EvWithModel (mkLlmChat (PyStr "k") (PyStr "s1") (PyStr "Be brief.") None)
       (PyStr "anthropic") (PyStr "m1");
     EvUserMessage (PyStr "hi");
     EvSendMessage
       (mkLlmChat (PyStr "k") (PyStr "s1") (PyStr "Be brief.")
          (Some (PyStr "anthropic", PyStr "m1")))
       (mkUserMessage (PyStr "hi"))].
Proof. reflexivity. Qed.

(** A valid JSON text that is not an object. *)
Example scenario_not_an_object :
  stdout (script echo [prog; "[]"]) =
    "{" ++ q "error" ++ ": " ++ q "'list' object has no attribute 'get'" ++ ", " ++
    q "type" ++ ": " ++ q "AttributeError" ++ "}" ++ newline /\
  exit_status (script echo [prog; "[]"]) = 1%Z.
Proof. split; reflexivity. Qed.

End Samples.

(** * Further properties of [main] *)

Section Runs.

Variables (w : World) (argv : list string).

(** Every run of the script is one of the paths of [run_of]. *)
Lemma script_run : run_of w argv (script w argv).
Proof.
  destruct (Nat.ltb_spec (length argv) 2) as [Hlen|Hlen].
  { rewrite (script_no_input w argv Hlen). now constructor. }
  destruct (nth_error argv 1) as [a|] eqn:Ha;
    [|apply nth_error_None in Ha; lia].
  destruct (decoder w a) as [e|v] eqn:Hv.
  { rewrite (script_decode_error w argv a e Ha Hv). now apply (run_decode_error w argv a e). }
  assert (Hother : (forall d, v <> PyDict d) -> run_of w argv (script w argv)).
  { intros Hnd. rewrite (script_not_dict w argv a v Ha Hv Hnd).
    now apply (run_not_dict w argv a v). }
  destruct v as [| | | | | |d]; try (apply Hother; discriminate).
  clear Hother.
  destruct (truthy (message (request_of w d))) eqn:Hm.
  2:{ rewrite (script_no_message w argv a d Ha Hv Hm). now apply (run_no_message w argv a d). }
  destruct (truthy (api_key (request_of w d))) eqn:Hk.
  2:{ rewrite (script_no_api_key w argv a d Ha Hv Hm Hk). now apply (run_no_api_key w argv a d). }
  destruct (collaborator_answers w (request_of w d))
    as [[R HR]|[(e & n & He)|(e & n & He)]].
  - rewrite (script_success w argv a d Ha Hv R Hm Hk HR). now apply (run_success w argv a d R).
  - rewrite (script_collaborator_raises w argv a d Ha Hv e n Hm Hk He).
    now apply (run_raises w argv a d e n).
  - rewrite (script_collaborator_aborts w argv a d Ha Hv e n Hm Hk He).
    now apply (run_aborts w argv a d e n).
Qed.

End Runs.

Section Extras.

Variable w : World.

(** X1: a valid JSON text that is not an object ([null], a boolean, a
    number, a string, an array) is reported as an [AttributeError]: the
    first [input_data.get] raises, the [except] clause prints the failure
    with its category and the process exits with status 1 without a call to
    the chat client. *)
Theorem non_object_json_reported (argv : list string) (a : string) (v : pyobj) :
  nth_error argv 1 = Some a ->
  decoder w a = inr v ->
  (forall d, v <> PyDict d) ->
  stdout (script w argv) =
    "{" ++ Json.quoted "error" ++ ": " ++
    Json.quoted ("'" ++ type_name v ++ "' object has no attribute 'get'") ++
    ", " ++ Json.quoted "type" ++ ": " ++ Json.quoted "AttributeError" ++ "}" ++
    newline /\
  exit_status (script w argv) = 1%Z /\
  traceback (script w argv) = None /\
  events (script w argv) =
    [EvJsonLoads a;
     EvPrint ("{" ++ Json.quoted "error" ++ ": " ++
              Json.quoted ("'" ++ type_name v ++ "' object has no attribute 'get'") ++
              ", " ++ Json.quoted "type" ++ ": " ++ Json.quoted "AttributeError" ++ "}")].
Proof.
  intros Ha Hv Hnd. rewrite (script_not_dict w argv a v Ha Hv Hnd).
  destruct v; repeat split; reflexivity.
Qed.


(** Only [sys.argv[1]] is read: arguments after it and the program name do
    not change what the process does. *)
Remark extra_arguments_ignored (p p' a : string) (rest : list string) :
  script w (p :: a :: rest) = script w [p'; a].
Proof. reflexivity. Qed.





Lemma loads_of_prefix (r : request) (n : nat) :
  filter is_json_loads (firstn n (delegation r)) = [].
Proof. do 5 (destruct n as [|n]; [reflexivity|]). reflexivity. Qed.


(** X4: when there is an argument, [json.loads] is called on it once, in
    every run: before anything else, and never again. *)
Theorem decoder_called_once (argv : list string) (a : string) :
  nth_error argv 1 = Some a ->
  filter is_json_loads (events (script w argv)) = [EvJsonLoads a] /\
  hd_error (events (script w argv)) = Some (EvJsonLoads a).
Proof.
  intros Ha.
  destruct (script_run w argv) as [Hlen|a' e Ha'|a' v Ha'|a' d Ha'|a' d Ha'
                                  |a' d e n Ha'|a' d e n Ha'|a' d R Ha'];
    try (rewrite Ha in Ha'; injection Ha' as <-);
    cbn [reported aborted events].
  - assert (Hlt : 1 < length argv) by (apply nth_error_Some; rewrite Ha; discriminate).
    lia.
  - split; reflexivity.
  - split; reflexivity.
  - split; reflexivity.
  - split; reflexivity.
  - split; [|reflexivity]. cbn. rewrite filter_app, loads_of_prefix. reflexivity.
  - split; [|reflexivity]. cbn. rewrite loads_of_prefix. reflexivity.
  - split; reflexivity.
Qed.


Lemma calls_of_validated (argv : list string) (a : string)
    (d : list (string * pyobj)) :
  nth_error argv 1 = Some a ->
  decoder w a = inr (PyDict d) ->
  truthy (message (request_of w d)) = true ->
  truthy (api_key (request_of w d)) = true ->
  exists n, 1 <= n <= 4 /\
    collaborator_calls (events (script w argv)) =
    firstn n (delegation (request_of w d)).
Proof.
  intros Ha Hd Hm Hk.
  destruct (collaborator_answers w (request_of w d))
    as [[R HR]|[(e & n & He)|(e & n & He)]].
  - exists 4. split; [lia|].
    rewrite (script_success w argv a d Ha Hd R Hm Hk HR). reflexivity.
  - exists n. split; [exact (collaborator_raises_stage w _ e n He)|].
    rewrite (script_collaborator_raises w argv a d Ha Hd e n Hm Hk He).
    unfold reported, events.
    change ((EvJsonLoads a :: firstn n ?l) ++ ?l')%list
      with ([EvJsonLoads a] ++ firstn n l ++ l')%list.
    apply calls_of_prefix; reflexivity.
  - exists n. split; [exact (collaborator_throws_stage w _ _ n He)|].
    rewrite (script_collaborator_aborts w argv a d Ha Hd e n Hm Hk He).
    unfold aborted, events.
    rewrite <- (app_nil_r (firstn n (delegation (request_of w d)))) at 1.
    change (EvJsonLoads a :: firstn n ?l ++ [])%list
      with ([EvJsonLoads a] ++ firstn n l ++ [])%list.
    apply calls_of_prefix; reflexivity.
Qed.

(** X6: the chat client is called in a run exactly when the argument
    decodes to an object whose message and API key are both truthy: no call
    is made for a request that fails a check. *)
Theorem collaborator_only_after_validation (argv : list string) :
  collaborator_calls (events (script w argv)) <> [] <->
  exists (a : string) (d : list (string * pyobj)),
    nth_error argv 1 = Some a /\
    decoder w a = inr (PyDict d) /\
    truthy (message (request_of w d)) = true /\
    truthy (api_key (request_of w d)) = true.
Proof.
  split.
  - intros Hcalls.
    destruct (script_run w argv) as [Hlen|a e Ha He|a v Ha Hv Hnd|a d Ha Hd Hm
                                    |a d Ha Hd Hm Hk|a d e n Ha Hd Hm Hk He
                                    |a d e n Ha Hd Hm Hk He
                                    |a d R Ha Hd Hm Hk HR];
      try (exfalso; apply Hcalls; reflexivity);
      exists a, d; auto.
  - intros (a & d & Ha & Hd & Hm & Hk).
    destruct (calls_of_validated argv a d Ha Hd Hm Hk) as (n & Hn & ->).
    destruct n as [|n]; [lia|]. discriminate.
Qed.

(** X7: when the object has no [apiKey] and [EMERGENT_LLM_KEY] holds a
    non-empty value, the request passes the API-key check and the session is
    constructed with that value. *)
Theorem environment_key_used (argv : list string) (a : string)
    (d : list (string * pyobj)) (k : string) :
  nth_error argv 1 = Some a ->
  decoder w a = inr (PyDict d) ->
  truthy (message (request_of w d)) = true ->
  lookup "apiKey" d = None ->
  lookup "EMERGENT_LLM_KEY" (environ w) = Some k ->
  k <> "" ->
  hd_error (collaborator_calls (events (script w argv))) =
    Some (EvLlmChat (PyStr k) (session_id (request_of w d))
            (system_message (request_of w d))).
Proof.
  intros Ha Hd Hm Hnone Henv Hk.
  assert (E : api_key (request_of w d) = PyStr k).
  { cbn. unfold dict_get, os_getenv. rewrite Hnone, Henv. reflexivity. }
  assert (Ht : truthy (api_key (request_of w d)) = true).
  { rewrite E. cbn. destruct (String.eqb_spec k ""); [contradiction|reflexivity]. }
  destruct (calls_of_validated argv a d Ha Hd Hm Ht) as (n & Hn & ->).
  destruct n as [|n]; [lia|]. cbn [delegation firstn hd_error].
  rewrite E. reflexivity.
Qed.


(** X9: the checks look at truth, not at types: a truthy message of any
    JSON type is handed to [UserMessage] as it is once the session is
    constructed and configured. *)
Theorem message_passed_unchanged (argv : list string) (a : string)
    (d : list (string * pyobj)) (m : pyobj) :
  nth_error argv 1 = Some a ->
  decoder w a = inr (PyDict d) ->
  lookup "message" d = Some m ->
  truthy m = true ->
  truthy (api_key (request_of w d)) = true ->
  chat_init w (api_key (request_of w d)) (session_id (request_of w d))
    (system_message (request_of w d)) = None ->
  chat_with_model w (fresh_chat (request_of w d)) (provider (request_of w d))
    (model (request_of w d)) = None ->
  nth_error (collaborator_calls (events (script w argv))) 2 =
    Some (EvUserMessage m).
Proof.
  intros Ha Hd Hl Hm Hk H1 H2.
  assert (E : message (request_of w d) = m).
  { cbn. unfold dict_get. rewrite Hl. reflexivity. }
  assert (Ht : truthy (message (request_of w d)) = true) by (rewrite E; exact Hm).
  destruct (collaborator_answers w (request_of w d))
    as [[R HR]|[(e & n & He)|(e & n & He)]].
  - rewrite (script_success w argv a d Ha Hd R Ht Hk HR).
    cbn. unfold dict_get. rewrite Hl. reflexivity.
  - rewrite (script_collaborator_raises w argv a d Ha Hd e n Ht Hk He).
    destruct He as [H1'|H1' H2'|H1' H2' H3'|H1' H2' H3' H4'];
      try congruence; cbn; unfold dict_get; rewrite Hl; reflexivity.
  - rewrite (script_collaborator_aborts w argv a d Ha Hd e n Ht Hk He).
    destruct He as [H1'|H1' H2'|H1' H2' H3'|H1' H2' H3' H4'];
      try congruence; cbn; unfold dict_get; rewrite Hl; reflexivity.
Qed.

End Extras.

Section Failures.

Variable w : World.


End Failures.

(** * The further properties on sample invocations *)

Section MoreSamples.

Import Demo.

Lemma non_object_json_reported_witness :
  stdout (script echo [prog; "[]"]) =
    "{" ++ q "error" ++ ": " ++ q "'list' object has no attribute 'get'" ++ ", " ++
    q "type" ++ ": " ++ q "AttributeError" ++ "}" ++ newline /\
  exit_status (script echo [prog; "[]"]) = 1%Z.
Proof.
  destruct (non_object_json_reported echo [prog; "[]"] "[]" (PyList [])
              eq_refl eq_refl)
    as (Hout & Hexit & _).
  - discriminate.
  - split; [exact Hout|exact Hexit].
Defined.

Lemma decoder_called_once_witness :
  filter is_json_loads (events (script echo [prog; request_hi])) =
    [EvJsonLoads request_hi] /\
  hd_error (events (script echo [prog; request_hi])) = Some (EvJsonLoads request_hi).
Proof.
  apply (decoder_called_once echo [prog; request_hi] request_hi). reflexivity.
Defined.

Lemma environment_key_used_witness :
  hd_error (collaborator_calls (events (script with_env_key [prog; request_no_key]))) =
    Some (EvLlmChat (PyStr "env-key") (PyStr "default")
            (PyStr "You are Shadow, an AI coding agent.")).
Proof.
  apply (environment_key_used with_env_key [prog; request_no_key] request_no_key
           [("message", PyStr "hi")] "env-key");
    try reflexivity.
  discriminate.
Defined.


Lemma message_passed_unchanged_witness :
  nth_error
    (collaborator_calls (events (script Edge.world [prog; Edge.request_number]))) 2 =
    Some (EvUserMessage (PyInt 5)).
Proof.
  apply (message_passed_unchanged Edge.world [prog; Edge.request_number]
           Edge.request_number
           [("message", PyInt 5); ("apiKey", PyStr "k")] (PyInt 5));
    reflexivity.
Defined.


End MoreSamples.
